(** * Shallow embedding of [fishing_alert.py] (sea-session alerts)

    Conventions of the embedding:
    - instants ([datetime] in UTC) are [Z] seconds since the Unix epoch;
      a calendar date ([datetime.date]) is the day number [t / 86400];
    - forecast values (Python floats) are rationals [Q];
    - scores (Python ints) are [Z];
    - the persisted [state.json] document (a dict of dicts) is a
      [gmap string (gmap string bool)];
    - a Python exception escaping [main] is the [Raised] outcome. *)

From Stdlib Require Import ZArith QArith Qabs Qround Bool Lia Lqa Sorted Permutation.
From stdpp Require Import base gmap strings list.

Local Open Scope Z_scope.

(** ** Outcomes of Python code that may raise *)

Inductive py_exn := ValueError.

Inductive outcome (A : Type) :=
| Ok (a : A)
| Raised (e : py_exn).
Arguments Ok {A} a.
Arguments Raised {A} e.

(** ** SCORING HELPERS (lines 31-51) *)

Definition Qltb (x y : Q) : bool := negb (Qle_bool y x).

Definition bass_sst_score (c : Q) : Z :=
  if Qle_bool 13.0 c then 2
  else if Qle_bool 12.0 c && Qltb c 13.0 then 1
  else 0.

Definition cod_sst_score (c : Q) : Z :=
  if Qle_bool 8.0 c && Qle_bool c 10.5 then 2
  else if Qle_bool 11.0 c && Qle_bool c 12.5 then 1
  else 0.

Definition wind_swell_ok (wind_kt swell_m : Q) : Z :=
  if Qle_bool swell_m 1.6 && Qle_bool wind_kt 18 then 2
  else if Qle_bool swell_m 2.2 && Qle_bool wind_kt 24 then 1
  else 0.

Definition pressure_trend_score (trend_hpa : Q) : Z :=
  if Qltb trend_hpa (-1.0) then 2
  else if Qle_bool (Qabs trend_hpa) 1.0 then 1
  else 0.

Definition label_from_score (x : Z) : string :=
  if 10 <=? x then "GREEN"
  else if (7 <=? x) && (x <=? 9) then "AMBER"
  else if (4 <=? x) && (x <=? 6) then "AMBER-"
  else "RED".

(** ** UTIL (lines 109-113) *)

Definition overlaps (a_start a_end b_start b_end : Z) : bool :=
  Z.max a_start b_start <? Z.min a_end b_end.

Definition hours2 : Z := 2 * 3600.

Definition pick_flood_windows (high_tides : list Z) : list (Z * Z) :=
  map (fun ht => (ht - hours2, ht)) high_tides.

(** ** Twilight (lines 90-106)

    The daylight collaborator is a function from a day number to the
    sunrise and sunset instants, [None] when the request failed
    ([civil_twilight_for_day] then returns [(None, None)]). The
    collaborator answers with well-formed data: a successful response
    without ["daily"] or with an unparseable time would raise [KeyError]
    or [ValueError] out of [main], which this model leaves out. *)

Definition minutes30 : Z := 30 * 60.

Definition civil_twilight_for_day (sun : Z -> option (Z * Z)) (d : Z)
  : option ((Z * Z) * (Z * Z)) :=
  match sun d with
  | Some (sr, ss) =>
      Some ((sr - minutes30, sr + minutes30), (ss - minutes30, ss + minutes30))
  | None => None
  end.

Definition date_of (t : Z) : Z := t / 86400.

(** ** Candidate windows (lines 212-230)

    [days] is the iteration order of the Python set
    [{now.date(), (now + 1 day).date()}]; the results below hold for
    every order. A candidate is [(start, end, label)]. *)

Definition twilight_label (fw_start fw_end : Z) (dawn dusk : Z * Z)
  : option string :=
  let label := if overlaps fw_start fw_end (fst dawn) (snd dawn)
               then Some "dawn"%string else None in
  if overlaps fw_start fw_end (fst dusk) (snd dusk)
  then match label with None => Some "dusk"%string | Some l => Some l end
  else label.

Definition day_candidates (now : Z) (flood_windows : list (Z * Z))
    (day : Z) (dawn dusk : Z * Z) : list (Z * Z * string) :=
  flat_map (fun fw =>
    let '(fw_start, fw_end) := fw in
    if negb (date_of fw_start =? day) then []
    else match twilight_label fw_start fw_end dawn dusk with
         | None => []
         | Some label =>
             if (fw_end <? now) || (now + 24 * 3600 <? fw_start) then []
             else [(fw_start, fw_end, label)]
         end) flood_windows.

Definition build_windows (now : Z) (sun : Z -> option (Z * Z))
    (days : list Z) (flood_windows : list (Z * Z)) : list (Z * Z * string) :=
  flat_map (fun day =>
    match civil_twilight_for_day sun day with
    | None => []
    | Some (dawn, dusk) => day_candidates now flood_windows day dawn dusk
    end) days.

(** Fallback tides (lines 200-208): 06:00 and 18:00 UTC today and tomorrow. *)
Definition approx_highs (now : Z) : list Z :=
  flat_map (fun d => [d * 86400 + 6 * 3600; d * 86400 + 18 * 3600])
    [date_of now; date_of (now + 86400)].

Definition effective_highs (now : Z) (highs : list Z) : list Z :=
  match highs with [] => approx_highs now | _ => highs end.

(** ** Hourly forecast (lines 179-189)

    [met["hourly"].get(key, [])]: a missing key is the empty list, and
    a failed fetch ([{"hourly": {}}]) makes every series empty. The
    samples here are numbers; [hourly_raw] below adds [null] samples,
    and [score_all_null_lift] shows the two models agree without them. *)

Record hourly := mk_hourly {
  h_time : list Z;
  h_sst : list Q;
  h_wind : list Q;
  h_wind_dir : list Q;
  h_waveh : list Q;
  h_wavep : list Q;
  h_psl : list Q
}.

Definition empty_hourly : hourly := mk_hourly [] [] [] [] [] [] [].

(** Pressure trend (lines 192-198): [psl[-1] - psl[len(psl)//2]] when
    both are truthy (non-zero), [0.0] when either is zero or the list is
    empty (the [IndexError] is caught). *)
Definition pressure_trend (psl : list Q) : Q :=
  match last psl, nth_error psl (Nat.div (length psl) 2) with
  | Some p_now, Some p_prev =>
      if negb (Qeq_bool p_now 0) && negb (Qeq_bool p_prev 0)
      then (p_now - p_prev)%Q else 0%Q
  | _, _ => 0%Q
  end.

(** [min(range(len(hours)), key=lambda i: abs(hours[i] - mid))]:
    the first index of minimal key; [min] of an empty range raises
    [ValueError]. *)
Fixpoint nearest_go (hs : list Z) (mid : Z) (i best : nat) (best_key : Z)
  : nat :=
  match hs with
  | [] => best
  | h :: t =>
      if Z.abs (h - mid) <? best_key
      then nearest_go t mid (S i) i (Z.abs (h - mid))
      else nearest_go t mid (S i) best best_key
  end.

Definition nearest_index (hours : list Z) (mid : Z) : outcome nat :=
  match hours with
  | [] => Raised ValueError
  | h :: t => Ok (nearest_go t mid 1 0 (Z.abs (h - mid)))
  end.

(** [xs[idx] if idx < len(xs) else d] *)
Definition at_or (xs : list Q) (idx : nat) (d : Q) : Q :=
  match nth_error xs idx with Some v => v | None => d end.

Record scored := mk_scored {
  s_start : Z;
  s_end : Z;
  s_label : string;
  s_sst : Q;
  s_wind_kt : Q;
  s_wind_dir : Q;
  s_wave_m : Q;
  s_wavep : Q;
  s_bass : Z;
  s_cod : Z
}.

Definition knots_per_ms : Q := 1.94384.

Definition bass_composite (val_sst wind_kt val_wave p_trend : Q) : Z :=
  bass_sst_score val_sst + 2 + wind_swell_ok wind_kt val_wave
  + pressure_trend_score p_trend + 1.

Definition wave_score (val_wave : Q) : Z :=
  if Qle_bool 0.8 val_wave && Qle_bool val_wave 1.8 then 2
  else if Qltb 1.8 val_wave then 1
  else 0.

Definition cod_composite (val_sst val_wave p_trend : Q) : Z :=
  cod_sst_score val_sst + wave_score val_wave
  + (2 + pressure_trend_score p_trend + 1).

(** One iteration of the scoring loop (lines 234-254). *)
Definition score_window (h : hourly) (p_trend : Q) (w : Z * Z * string)
  : outcome scored :=
  let '(start, end_, label) := w in
  let mid := start + (end_ - start) / 2 in
  match nearest_index (h_time h) mid with
  | Raised e => Raised e
  | Ok idx =>
      let val_sst := at_or (h_sst h) idx 12.0 in
      let val_wind := at_or (h_wind h) idx 6.0 in
      let val_wind_dir := at_or (h_wind_dir h) idx 225 in
      let val_wave := at_or (h_waveh h) idx 1.2 in
      let val_wavep := at_or (h_wavep h) idx 9.0 in
      let wind_kt := (val_wind * knots_per_ms)%Q in
      let b := bass_composite val_sst wind_kt val_wave p_trend in
      let c := cod_composite val_sst val_wave p_trend in
      Ok (mk_scored start end_ label val_sst wind_kt val_wind_dir
            val_wave val_wavep b c)
  end.

(** The loop: the first exception escapes. *)
Fixpoint score_all (h : hourly) (p_trend : Q) (ws : list (Z * Z * string))
  : outcome (list scored) :=
  match ws with
  | [] => Ok []
  | w :: rest =>
      match score_window h p_trend w with
      | Raised e => Raised e
      | Ok r =>
          match score_all h p_trend rest with
          | Raised e => Raised e
          | Ok rs => Ok (r :: rs)
          end
      end
  end.

(** Data phase of [main] (lines 176-254): from the forecast, the tide
    extremes and the daylight collaborator to the scored windows. *)
Definition evaluate (now : Z) (days : list Z) (met : hourly)
    (highs : list Z) (sun : Z -> option (Z * Z)) : outcome (list scored) :=
  let p_trend := pressure_trend (h_psl met) in
  let flood_windows := pick_flood_windows (effective_highs now highs) in
  let windows := build_windows now sun days flood_windows in
  score_all met p_trend windows.

Definition run_days (now : Z) : list Z := [date_of now; date_of (now + 86400)].

(** ** Forecast samples with nulls (lines 179-189 and 233-254)

    The marine API reports a missing sample as JSON [null], which
    [r.json()] reads as [None]. Here a value series is a
    [list (option Q)], [None] standing for a [None] element; the
    timestamps are parsed instants as above. A [None] sample is
    selected like any other by [xs[idx] if idx < len(xs) else d]. Then
    [val_wind * 1.94384] (line 242) raises [TypeError] on a [None] wind,
    and [bass_sst_score(val_sst)] and [wind_swell_ok(wind_kt, val_wave)]
    (line 244) compare [None] with a float, which raises [TypeError] on
    a [None] temperature or wave height. The wind direction and the wave
    period are only stored. *)

Inductive py_error := PyValueError | PyTypeError.

Record hourly_raw := mk_hourly_raw {
  hr_time : list Z;
  hr_sst : list (option Q);
  hr_wind : list (option Q);
  hr_wind_dir : list (option Q);
  hr_waveh : list (option Q);
  hr_wavep : list (option Q)
}.

Definition at_or_null (xs : list (option Q)) (idx : nat) (d : Q) : option Q :=
  match nth_error xs idx with Some v => v | None => Some d end.

Record scored_raw := mk_scored_raw {
  rs_start : Z;
  rs_end : Z;
  rs_label : string;
  rs_sst : Q;
  rs_wind_kt : Q;
  rs_wind_dir : option Q;
  rs_wave_m : Q;
  rs_wavep : option Q;
  rs_bass : Z;
  rs_cod : Z
}.

(** [mid = start + (end - start) / 2] *)
Definition window_mid (w : Z * Z * string) : Z :=
  let '(start, end_, _) := w in start + (end_ - start) / 2.

Definition score_window_null (h : hourly_raw) (p_trend : Q) (w : Z * Z * string)
  : py_error + scored_raw :=
  let '(start, end_, label) := w in
  match nearest_index (hr_time h) (window_mid w) with
  | Raised _ => inl PyValueError
  | Ok idx =>
      let val_sst := at_or_null (hr_sst h) idx 12.0 in
      let val_wind := at_or_null (hr_wind h) idx 6.0 in
      let val_wind_dir := at_or_null (hr_wind_dir h) idx 225 in
      let val_wave := at_or_null (hr_waveh h) idx 1.2 in
      let val_wavep := at_or_null (hr_wavep h) idx 9.0 in
      match val_wind with
      | None => inl PyTypeError
      | Some vw =>
          let wind_kt := (vw * knots_per_ms)%Q in
          match val_sst, val_wave with
          | Some vs, Some vh =>
              inr (mk_scored_raw start end_ label vs wind_kt val_wind_dir
                     vh val_wavep (bass_composite vs wind_kt vh p_trend)
                     (cod_composite vs vh p_trend))
          | _, _ => inl PyTypeError
          end
      end
  end.

Fixpoint score_all_null (h : hourly_raw) (p_trend : Q) (ws : list (Z * Z * string))
  : py_error + list scored_raw :=
  match ws with
  | [] => inr []
  | w :: rest =>
      match score_window_null h p_trend w with
      | inl e => inl e
      | inr r =>
          match score_all_null h p_trend rest with
          | inl e => inl e
          | inr rs => inr (r :: rs)
          end
      end
  end.

(** The sample at [idx] of the series is [None]. *)
Definition null_at (xs : list (option Q)) (idx : nat) : bool :=
  match nth_error xs idx with Some None => true | _ => false end.

(** A [None] at [idx] in one of the series the loop computes with. *)
Definition sample_null (h : hourly_raw) (idx : nat) : bool :=
  null_at (hr_sst h) idx || null_at (hr_wind h) idx || null_at (hr_waveh h) idx.

(** A forecast without [None] samples, and a scored window seen in the
    null-aware model. *)
Definition lift_hourly (h : hourly) : hourly_raw :=
  mk_hourly_raw (h_time h) (map Some (h_sst h)) (map Some (h_wind h))
    (map Some (h_wind_dir h)) (map Some (h_waveh h)) (map Some (h_wavep h)).

Definition lift_scored (r : scored) : scored_raw :=
  mk_scored_raw (s_start r) (s_end r) (s_label r) (s_sst r) (s_wind_kt r)
    (Some (s_wind_dir r)) (s_wave_m r) (Some (s_wavep r)) (s_bass r) (s_cod r).

(** ** Selection (lines 260-271) *)

Definition best_score (r : scored) : Z := Z.max (s_bass r) (s_cod r).

Definition is_green (r : scored) : bool := 10 <=? best_score r.
Definition is_amber (r : scored) : bool :=
  (7 <=? best_score r) && (best_score r <=? 9).

(** Python's tuple order on the sort key [(-best_score(r), r["start"])]. *)
Definition key_of (r : scored) : Z * Z := (- best_score r, s_start r).

Definition key_lt (a b : Z * Z) : bool :=
  (fst a <? fst b) || ((fst a =? fst b) && (snd a <? snd b)).

(** [sorted] is a stable sort; any stable sort by the same key gives the
    same list, so a stable insertion sort stands for Timsort here. The
    elements are inserted from the back of the list, so the element
    being inserted comes earlier in the input than every element already
    placed: it goes before the first of them whose key is not strictly
    smaller, which keeps elements of equal key in input order. *)
Fixpoint insert_by (x : scored) (l : list scored) : list scored :=
  match l with
  | [] => [x]
  | y :: t => if negb (key_lt (key_of y) (key_of x)) then x :: y :: t
              else y :: insert_by x t
  end.

Definition sort_by_key (l : list scored) : list scored :=
  fold_right insert_by [] l.

Definition pick_best (lst : list scored) : option scored :=
  match lst with
  | [] => None
  | _ => head (sort_by_key lst)
  end.

(** ** NotificationGate (lines 159-173 and 273-289) *)

Inductive band := GREEN | AMBER.

#[global] Instance band_eq_dec : EqDecision band.
Proof. solve_decision. Defined.

Definition band_key (b : band) : string :=
  match b with GREEN => "green" | AMBER => "amber" end.

Abbreviation state := (gmap string (gmap string bool)).

(** [state.get(today, {}).get(key, False)] *)
Definition sent_flag (st : state) (today : string) (b : band) : bool :=
  match st !! today with
  | Some r => default false (r !! band_key b)
  | None => false
  end.

(** The raw entry of a band on a day: absent day, absent key or the
    stored flag. *)
Definition entry (st : state) (d : string) (b : band) : option bool :=
  st !! d ≫= fun r => r !! band_key b.

(** [state.setdefault(today, {})[key] = True] *)
Definition mark_sent (st : state) (today : string) (b : band) : state :=
  <[today := <[band_key b := true]> (default ∅ (st !! today))]> st.

Record config := mk_config {
  pushover_token : string;
  pushover_user : string
}.

Definition truthy_str (s : string) : bool :=
  match s with EmptyString => false | _ => true end.

(** [send_push]: [False] without credentials (no request is made),
    otherwise the acknowledgement [net] of the push provider for the
    band ([raise_for_status] passed or a [RequestException] was caught). *)
Definition send_push (cfg : config) (net : band -> bool) (b : band) : bool :=
  if negb (truthy_str (pushover_token cfg) && truthy_str (pushover_user cfg))
  then false
  else net b.

(** Result of the dispatch block: the in-memory state, the bands for
    which [send_push] was called (in call order) and [updated]. *)
Record dispatch_result := mk_dispatch {
  d_state : state;
  d_attempts : list band;
  d_updated : bool
}.

(** One [if pick and not sent_today:] block. *)
Definition dispatch_band (cfg : config) (net : band -> bool) (today : string)
    (b : band) (pick : option scored) (sent_today : bool)
    (acc : dispatch_result) : dispatch_result :=
  match pick with
  | Some _ =>
      if negb sent_today then
        if send_push cfg net b
        then mk_dispatch (mark_sent (d_state acc) today b)
               (d_attempts acc ++ [b]) true
        else mk_dispatch (d_state acc) (d_attempts acc ++ [b]) (d_updated acc)
      else acc
  | None => acc
  end.

(** [sent_green_today] and [sent_amber_today] are read from the state as
    loaded (lines 172-173), before either block runs. *)
Definition dispatch (cfg : config) (net : band -> bool) (today : string)
    (st : state) (pick_green pick_amber : option scored) : dispatch_result :=
  let sent_green_today := sent_flag st today GREEN in
  let sent_amber_today := sent_flag st today AMBER in
  let r0 := mk_dispatch st [] false in
  let r1 := dispatch_band cfg net today GREEN pick_green sent_green_today r0 in
  dispatch_band cfg net today AMBER pick_amber sent_amber_today r1.

(** The document in [state.json] after the run: rewritten with the
    in-memory state when [updated] and the write succeeded ([write_ok]),
    otherwise as loaded. *)
Definition persisted (st : state) (r : dispatch_result) (write_ok : bool)
  : state :=
  if d_updated r && write_ok then d_state r else st.

(** Selection and dispatch phase of [main] (lines 256-289). *)
Definition notify (cfg : config) (net : band -> bool) (today : string)
    (st : state) (scored_ws : list scored) : dispatch_result :=
  match scored_ws with
  | [] => mk_dispatch st [] false
  | _ =>
      let greens := List.filter is_green scored_ws in
      let ambers := List.filter is_amber scored_ws in
      dispatch cfg net today st (pick_best greens) (pick_best ambers)
  end.

(** ** Concrete instants used in the examples *)

(** [at_utc day h m]: [h:m] UTC on day number [day]. *)
Definition at_utc (day h m : Z) : Z := day * 86400 + h * 3600 + m * 60.

(** 2024-01-01 is day 19723 of the Unix epoch. *)
Definition jan1 : Z := 19723.

(** Truthiness of the selected record ([if pick_green and ...]): a
    selected window is a non-empty dict, [None] is falsy. *)
Definition picked (pick : option scored) : bool :=
  match pick with Some _ => true | None => false end.

(** Concrete run for C8 and C2: flood window [12:00, 14:00) on
    2024-01-01, sunrise 14:00 (dawn [13:30, 14:30)) and sunset 13:15
    (dusk [12:45, 13:45)), evaluated at 11:00 the same day. *)
Definition sun_both (d : Z) : option (Z * Z) :=
  if d =? jan1 then Some (at_utc jan1 14 0, at_utc jan1 13 15) else None.

(** Forecast of the end-to-end example of the spec: one sample at
    13:00 UTC with sst 13.5, wind 5 m/s, wave 1.0 m. *)
Definition example_hourly : hourly :=
  mk_hourly [at_utc jan1 13 0] [13.5%Q] [5%Q] [225%Q] [1.0%Q] [9.0%Q] [].

Definition example_window : Z * Z * string :=
  (at_utc jan1 12 0, at_utc jan1 14 0, "dawn"%string).

(** Daylight at the coast on 2024-01-01 and 2024-01-02: sunrise 08:25,
    sunset 16:10 and 16:11 UTC. *)
Definition sun_jan (d : Z) : option (Z * Z) :=
  if d =? jan1 then Some (at_utc jan1 8 25, at_utc jan1 16 10)
  else if d =? jan1 + 1 then Some (at_utc (jan1 + 1) 8 25, at_utc (jan1 + 1) 16 11)
  else None.

(** A scored window starting at [start] with the given scores. *)
Definition example_scored (start bass cod : Z) : scored :=
  mk_scored start (start + 7200) "dawn" 12.0 11.66304 225 1.2 9.0 bass cod.

(** The persisted state [{"2024-01-01": {"green": true}}]. *)
Definition example_state : state :=
  <["2024-01-01"%string := <["green"%string := true]> ∅]> ∅.

Definition example_config : config := mk_config "tok" "usr".

(** ** Wind direction label of [send_push] (lines 124-127) *)

Definition cardinal_dirs : list string :=
  ["N"; "NNE"; "NE"; "ENE"; "E"; "ESE"; "SE"; "SSE";
   "S"; "SSW"; "SW"; "WSW"; "W"; "WNW"; "NW"; "NNW"].

(** Python's float [x % y]: [x - floor(x / y) * y]. *)
Definition py_fmod (x y : Q) : Q := (x - inject_Z (Qfloor (x / y)) * y)%Q.

(** [int(q)] on a float: truncation toward zero. *)
Definition py_int (q : Q) : Z :=
  if Qle_bool 0 q then Qfloor q else - Qfloor (- q).

(** [lst[i]]: a negative index counts from the end; out of range is an
    [IndexError] ([None]). *)
Definition py_index {A : Type} (l : list A) (i : Z) : option A :=
  if i <? 0 then
    if 0 <=? i + Z.of_nat (length l)
    then nth_error l (Z.to_nat (i + Z.of_nat (length l))) else None
  else nth_error l (Z.to_nat i).

(** [int((wind_dir_deg % 360) / 22.5 + 0.5) % 16] *)
Definition wind_dir_index (wind_dir_deg : Q) : Z :=
  py_int (py_fmod wind_dir_deg 360 / 22.5 + 0.5) mod 16.

Definition wind_dir_label (wind_dir_deg : Q) : option string :=
  py_index cardinal_dirs (wind_dir_index wind_dir_deg).

(** ** Tide extremes (lines 71-88)

    The parsed JSON of the response is one of: no usable response (the
    request, [raise_for_status] or [r.json()] raised a
    [RequestException], which is caught); a value that is not an object
    ([data.get] raises [AttributeError]); or an object, whose
    ["extremes"] is absent, an iterable, or a value that is not iterable
    ([null], a number or a boolean: the [for] raises [TypeError]). An
    iterable is its list of elements; a string or an object iterates as
    strings, which are not objects. A field of an object is absent, a
    string, or another JSON value ([null] included). *)

Inductive jfield := JMissing | JStr (s : string) | JNonStr.

Record extreme := mk_extreme {
  ex_type : jfield;
  ex_date : jfield
}.

Inductive jelem := JExtreme (ex : extreme) | JNonObj.

Inductive jextremes := EMissing | EList (l : list jelem) | ENonIterable.

Inductive tides_resp := RespFailed | RespNonObject | RespObject (ext : jextremes).

(** The exceptions of the loop, none of which is a [RequestException]. *)
Inductive tides_exn := ExKeyError | ExValueError | ExTypeError | ExAttributeError.

Inductive tides_result :=
| Highs (highs : list Z)
| TidesRaised (e : tides_exn).

Definition ascii_lower (c : Ascii.ascii) : Ascii.ascii :=
  let n := Ascii.N_of_ascii c in
  if (65 <=? n)%N && (n <=? 90)%N then Ascii.ascii_of_N (n + 32) else c.

Fixpoint str_lower (s : string) : string :=
  match s with
  | EmptyString => EmptyString
  | String c t => String (ascii_lower c) (str_lower t)
  end.

(** [ex.get("type", "").lower() == "high"]: an absent type is [""];
    [.lower()] of a value that is not a string raises [AttributeError]. *)
Definition is_high (t : jfield) : tides_exn + bool :=
  match t with
  | JMissing => inr false
  | JStr s => inr (String.eqb (str_lower s) "high")
  | JNonStr => inl ExAttributeError
  end.

(** [dt.datetime.fromisoformat(ex["date"]).replace(tzinfo=dt.timezone.utc)].
    [iso] is [fromisoformat] followed by [.replace]: the instant read in
    UTC, or [None] for a string it rejects ([ValueError]); an absent
    ["date"] raises [KeyError], a value that is not a string [TypeError]. *)
Definition parse_date (iso : string -> option Z) (d : jfield) : tides_exn + Z :=
  match d with
  | JMissing => inl ExKeyError
  | JNonStr => inl ExTypeError
  | JStr s => match iso s with Some t => inr t | None => inl ExValueError end
  end.

(** The [for] loop over the extremes: the first exception escapes. *)
Fixpoint collect_highs (iso : string -> option Z) (exs : list jelem)
  : tides_exn + list Z :=
  match exs with
  | [] => inr []
  | JNonObj :: _ => inl ExAttributeError
  | JExtreme ex :: t =>
      match is_high (ex_type ex) with
      | inl e => inl e
      | inr false => collect_highs iso t
      | inr true =>
          match parse_date iso (ex_date ex) with
          | inl e => inl e
          | inr d =>
              match collect_highs iso t with
              | inl e => inl e
              | inr hs => inr (d :: hs)
              end
          end
      end
  end.

(** [sorted] on instants. *)
Fixpoint insert_Z (x : Z) (l : list Z) : list Z :=
  match l with
  | [] => [x]
  | y :: t => if x <=? y then x :: y :: t else y :: insert_Z x t
  end.

Definition sort_Z (l : list Z) : list Z := fold_right insert_Z [] l.

(** Without an API key no request is made. *)
Definition fetch_worldtides_extremes (worldtides_key : string)
    (iso : string -> option Z) (resp : tides_resp) : tides_result :=
  if negb (truthy_str worldtides_key) then Highs []
  else match resp with
       | RespFailed => Highs []
       | RespNonObject => TidesRaised ExAttributeError
       | RespObject EMissing => Highs []
       | RespObject ENonIterable => TidesRaised ExTypeError
       | RespObject (EList exs) =>
           match collect_highs iso exs with
           | inl e => TidesRaised e
           | inr highs => Highs (sort_Z highs)
           end
       end.

(** The instants of the extremes of type "high" (any letter case) whose
    date parses, in input order. *)
Definition high_dates (iso : string -> option Z) (exs : list jelem) : list Z :=
  flat_map (fun x =>
    match x with
    | JExtreme ex =>
        match is_high (ex_type ex), parse_date iso (ex_date ex) with
        | inr true, inr t => [t]
        | _, _ => []
        end
    | JNonObj => []
    end) exs.

(** The exception an element of the extremes raises in the loop body. *)
Definition elem_error (iso : string -> option Z) (x : jelem) : option tides_exn :=
  match x with
  | JNonObj => Some ExAttributeError
  | JExtreme ex =>
      match is_high (ex_type ex) with
      | inl e => Some e
      | inr false => None
      | inr true =>
          match parse_date iso (ex_date ex) with inl e => Some e | inr _ => None end
      end
  end.

(** A date parser for the examples: two fixed ISO strings. *)
Definition example_iso (s : string) : option Z :=
  if String.eqb s "2024-01-01T06:10" then Some (at_utc jan1 6 10)
  else if String.eqb s "2024-01-01T18:30" then Some (at_utc jan1 18 30)
  else None.

(** ** General lemmas *)

Lemma key_lt_true (a b : Z * Z) :
  key_lt a b = true <-> fst a < fst b \/ (fst a = fst b /\ snd a < snd b).
Proof.
  unfold key_lt. rewrite orb_true_iff, andb_true_iff, Z.ltb_lt, Z.eqb_eq, Z.ltb_lt.
  tauto.
Qed.

Lemma twilight_label_cases (s e : Z) (dawn dusk : Z * Z) :
  twilight_label s e dawn dusk =
  if overlaps s e (fst dawn) (snd dawn) then Some "dawn"%string
  else if overlaps s e (fst dusk) (snd dusk) then Some "dusk"%string
  else None.
Proof.
  unfold twilight_label.
  destruct (overlaps s e (fst dawn) (snd dawn)), (overlaps s e (fst dusk) (snd dusk));
    reflexivity.
Qed.

Lemma build_windows_In (now : Z) (sun : Z -> option (Z * Z)) (days : list Z)
    (fws : list (Z * Z)) (s e : Z) (l : string) :
  In (s, e, l) (build_windows now sun days fws) <->
  exists d dawn dusk,
    In d days /\ civil_twilight_for_day sun d = Some (dawn, dusk) /\
    In (s, e) fws /\ date_of s = d /\
    twilight_label s e dawn dusk = Some l /\
    ~ e < now /\ ~ now + 24 * 3600 < s.
Proof.
  unfold build_windows. rewrite in_flat_map. split.
  - intros (d & Hd & Hin).
    destruct (civil_twilight_for_day sun d) as [[dawn dusk]|] eqn:Htw;
      [|contradiction].
    unfold day_candidates in Hin. apply in_flat_map in Hin.
    destruct Hin as ([fs fe] & Hfw & Hin).
    destruct (date_of fs =? d) eqn:Hdate; simpl in Hin; [|contradiction].
    destruct (twilight_label fs fe dawn dusk) as [lab|] eqn:Hlab; [|contradiction].
    destruct ((fe <? now) || (now + 24 * 3600 <? fs)) eqn:Hf; [contradiction|].
    destruct Hin as [Heq|[]]. injection Heq as <- <- <-.
    apply orb_false_iff in Hf as [H1 H2].
    apply Z.eqb_eq in Hdate. apply Z.ltb_ge in H1. apply Z.ltb_ge in H2.
    exists d, dawn, dusk. repeat split; auto; lia.
  - intros (d & dawn & dusk & Hd & Htw & Hfw & Hdate & Hlab & H1 & H2).
    exists d. split; [exact Hd|]. rewrite Htw.
    unfold day_candidates. apply in_flat_map. exists (s, e). split; [exact Hfw|].
    rewrite Hdate, Z.eqb_refl. simpl. rewrite Hlab.
    replace ((e <? now) || (now + 24 * 3600 <? s)) with false.
    + left. reflexivity.
    + symmetry. apply orb_false_iff. split; apply Z.ltb_ge; lia.
Qed.

(** ** Claims *)

(** C9: every high tide [t] gives exactly the flood window
    [(t - 2h, t)], one per high tide and in the same order; a high tide
    at 14:00 UTC gives [(12:00, 14:00)]. *)
Theorem flood_window_of_high_tide :
  (forall high_tides : list Z,
      length (pick_flood_windows high_tides) = length high_tides /\
      forall i : nat,
        nth_error (pick_flood_windows high_tides) i =
        option_map (fun t => (t - 2 * 3600, t)) (nth_error high_tides i)) /\
  pick_flood_windows [at_utc jan1 14 0] = [(at_utc jan1 12 0, at_utc jan1 14 0)].
Proof.
  split.
  - intros hts. unfold pick_flood_windows. split.
    + apply length_map.
    + intros i. rewrite nth_error_map. reflexivity.
  - reflexivity.
Qed.

(** C10: [overlaps] is [max(starts) < min(ends)], which is exactly the
    existence of a common instant of the two half-open intervals; two
    intervals that only share an endpoint never overlap; and the two
    examples of the spec. *)
Theorem overlaps_half_open :
  (forall a_start a_end b_start b_end : Z,
      (overlaps a_start a_end b_start b_end = true <->
       Z.max a_start b_start < Z.min a_end b_end) /\
      (overlaps a_start a_end b_start b_end = true <->
       exists t, a_start <= t < a_end /\ b_start <= t < b_end)) /\
  (forall a_start m b_end : Z, overlaps a_start m m b_end = false) /\
  overlaps (at_utc jan1 12 0) (at_utc jan1 14 0)
           (at_utc jan1 13 30) (at_utc jan1 14 30) = true /\
  overlaps (at_utc jan1 12 0) (at_utc jan1 14 0)
           (at_utc jan1 14 0) (at_utc jan1 15 0) = false.
Proof.
  split; [|split; [|split; reflexivity]].
  - intros a_s a_e b_s b_e. unfold overlaps. rewrite Z.ltb_lt. split; [tauto|].
    split.
    + intros H. exists (Z.max a_s b_s). lia.
    + intros (t & H1 & H2). lia.
  - intros a_s m b_e. unfold overlaps. apply Z.ltb_ge. lia.
Qed.

(** C8: every candidate produced from the flood windows comes from one
    day of the run whose twilight windows are known; when its flood
    window overlaps that day's dawn window it is labelled "dawn" (also
    when it overlaps dusk as well), when it overlaps only dusk it is
    labelled "dusk", and a flood window overlapping neither is never
    produced. *)
Theorem candidate_label_dawn_precedence (now : Z) (sun : Z -> option (Z * Z))
    (days : list Z) (flood_windows : list (Z * Z)) (s e : Z) (l : string)
    (H : In (s, e, l) (build_windows now sun days flood_windows)) :
  exists d dawn dusk,
    In d days /\ civil_twilight_for_day sun d = Some (dawn, dusk) /\
    In (s, e) flood_windows /\ date_of s = d /\
    (overlaps s e (fst dawn) (snd dawn) = true -> l = "dawn"%string) /\
    (overlaps s e (fst dawn) (snd dawn) = false ->
     overlaps s e (fst dusk) (snd dusk) = true -> l = "dusk"%string) /\
    (overlaps s e (fst dawn) (snd dawn) = true \/
     overlaps s e (fst dusk) (snd dusk) = true).
Proof.
  apply build_windows_In in H.
  destruct H as (d & dawn & dusk & Hd & Htw & Hfw & Hdate & Hlab & _ & _).
  exists d, dawn, dusk. do 4 (split; [assumption|]).
  rewrite twilight_label_cases in Hlab.
  destruct (overlaps s e (fst dawn) (snd dawn)),
           (overlaps s e (fst dusk) (snd dusk)); try discriminate;
    injection Hlab as <-; repeat split; auto; discriminate.
Qed.


Lemma candidate_label_dawn_precedence_witness :
  In (at_utc jan1 12 0, at_utc jan1 14 0, "dawn"%string)
     (build_windows (at_utc jan1 11 0) sun_both [jan1]
        [(at_utc jan1 12 0, at_utc jan1 14 0)]) /\
  exists d dawn dusk,
    In d [jan1] /\ civil_twilight_for_day sun_both d = Some (dawn, dusk) /\
    In (at_utc jan1 12 0, at_utc jan1 14 0)
       [(at_utc jan1 12 0, at_utc jan1 14 0)] /\
    date_of (at_utc jan1 12 0) = d /\
    (overlaps (at_utc jan1 12 0) (at_utc jan1 14 0) (fst dawn) (snd dawn) = true ->
     "dawn"%string = "dawn"%string) /\
    (overlaps (at_utc jan1 12 0) (at_utc jan1 14 0) (fst dawn) (snd dawn) = false ->
     overlaps (at_utc jan1 12 0) (at_utc jan1 14 0) (fst dusk) (snd dusk) = true ->
     "dawn"%string = "dusk"%string) /\
    (overlaps (at_utc jan1 12 0) (at_utc jan1 14 0) (fst dawn) (snd dawn) = true \/
     overlaps (at_utc jan1 12 0) (at_utc jan1 14 0) (fst dusk) (snd dusk) = true).
Proof.
  assert (H : In (at_utc jan1 12 0, at_utc jan1 14 0, "dawn"%string)
     (build_windows (at_utc jan1 11 0) sun_both [jan1]
        [(at_utc jan1 12 0, at_utc jan1 14 0)])) by (vm_compute; left; reflexivity).
  split; [exact H|].
  exact (candidate_label_dawn_precedence _ _ _ _ _ _ _ H).
Defined.

(** C2 (counterexample): the candidate is not the intersection of the
    flood and twilight intervals. With flood window [12:00, 14:00) and
    dawn window [13:30, 14:30) the run produces the candidate
    [12:00, 14:00), not the overlap [13:30, 14:00). *)
Lemma candidate_is_not_intersection :
  let dawn := (at_utc jan1 13 30, at_utc jan1 14 30) in
  let fw := (at_utc jan1 12 0, at_utc jan1 14 0) in
  build_windows (at_utc jan1 11 0) sun_both [jan1] [fw] =
    [(fst fw, snd fw, "dawn"%string)] /\
  civil_twilight_for_day sun_both jan1 =
    Some (dawn, (at_utc jan1 12 45, at_utc jan1 13 45)) /\
  (fst fw, snd fw) <> (Z.max (fst fw) (fst dawn), Z.min (snd fw) (snd dawn)).
Proof.
  vm_compute. split; [reflexivity|]. split; [reflexivity|].
  intros H. discriminate H.
Qed.

(** C2 (amended): every candidate produced from the high tides is a
    whole flood window [(t - 2h, t)] of some high tide [t] whose start
    falls on one day of the run, and it overlaps that day's dawn or dusk
    window; its interval is the flood interval itself, not its
    intersection with the twilight window. *)
Theorem candidate_is_whole_flood_window (now : Z) (sun : Z -> option (Z * Z))
    (days : list Z) (highs : list Z) (s e : Z) (l : string)
    (H : In (s, e, l) (build_windows now sun days (pick_flood_windows highs))) :
  exists t d dawn dusk,
    In t highs /\ s = t - 2 * 3600 /\ e = t /\
    In d days /\ civil_twilight_for_day sun d = Some (dawn, dusk) /\
    date_of s = d /\
    (overlaps s e (fst dawn) (snd dawn) = true \/
     overlaps s e (fst dusk) (snd dusk) = true).
Proof.
  apply build_windows_In in H.
  destruct H as (d & dawn & dusk & Hd & Htw & Hfw & Hdate & Hlab & _ & _).
  unfold pick_flood_windows in Hfw. apply in_map_iff in Hfw.
  destruct Hfw as (t & Heq & Ht). injection Heq as Hs He.
  exists t, d, dawn, dusk. unfold hours2 in Hs.
  repeat split; auto; try lia.
  rewrite twilight_label_cases in Hlab.
  destruct (overlaps s e (fst dawn) (snd dawn)),
           (overlaps s e (fst dusk) (snd dusk)); auto; discriminate.
Qed.

Lemma candidate_is_whole_flood_window_witness :
  In (at_utc jan1 12 0, at_utc jan1 14 0, "dawn"%string)
     (build_windows (at_utc jan1 11 0) sun_both [jan1]
        (pick_flood_windows [at_utc jan1 14 0])) /\
  exists t d dawn dusk,
    In t [at_utc jan1 14 0] /\ at_utc jan1 12 0 = t - 2 * 3600 /\
    at_utc jan1 14 0 = t /\
    In d [jan1] /\ civil_twilight_for_day sun_both d = Some (dawn, dusk) /\
    date_of (at_utc jan1 12 0) = d /\
    (overlaps (at_utc jan1 12 0) (at_utc jan1 14 0) (fst dawn) (snd dawn) = true \/
     overlaps (at_utc jan1 12 0) (at_utc jan1 14 0) (fst dusk) (snd dusk) = true).
Proof.
  assert (H : In (at_utc jan1 12 0, at_utc jan1 14 0, "dawn"%string)
     (build_windows (at_utc jan1 11 0) sun_both [jan1]
        (pick_flood_windows [at_utc jan1 14 0]))) by (vm_compute; left; reflexivity).
  split; [exact H|].
  exact (candidate_is_whole_flood_window _ _ _ _ _ _ _ H).
Defined.


(** C6: the bass composite stored by the scorer is temperature score + 2
    + wind/swell score + pressure-trend score + 1; for sst 13.5, wind
    5 m/s, wave 1.0 m and pressure trend -1.5 it is 9, labelled "AMBER"
    and not "GREEN". *)
Theorem bass_composite_sum (h : hourly) (p_trend : Q) (w : Z * Z * string)
    (r : scored) (H : score_window h p_trend w = Ok r) :
  s_bass r = bass_sst_score (s_sst r) + 2 + wind_swell_ok (s_wind_kt r) (s_wave_m r)
             + pressure_trend_score p_trend + 1 /\
  (exists r0, score_window example_hourly (-1.5)%Q example_window = Ok r0 /\
     s_bass r0 = 2 + 2 + 2 + 2 + 1 /\
     label_from_score (s_bass r0) = "AMBER"%string /\
     label_from_score (s_bass r0) <> "GREEN"%string).
Proof.
  split.
  - destruct w as [[start end_] label]. unfold score_window in H.
    destruct (nearest_index (h_time h) _) as [idx|e]; [|discriminate].
    injection H as <-. reflexivity.
  - eexists. split; [reflexivity|]. vm_compute.
    split; [reflexivity|]. split; [reflexivity|]. discriminate.
Qed.

Lemma bass_composite_sum_witness :
  exists r, score_window example_hourly (-1.5)%Q example_window = Ok r /\
    s_bass r = bass_sst_score (s_sst r) + 2 + wind_swell_ok (s_wind_kt r) (s_wave_m r)
               + pressure_trend_score (-1.5)%Q + 1.
Proof.
  eexists. split; [vm_compute; reflexivity|].
  apply (proj1 (bass_composite_sum example_hourly (-1.5)%Q example_window _
                  ltac:(vm_compute; reflexivity))).
Defined.

(** Each rule contributes 0, 1 or 2. *)
Lemma rule_scores_range (c w s t : Q) :
  0 <= bass_sst_score c <= 2 /\ 0 <= cod_sst_score c <= 2 /\
  0 <= wind_swell_ok w s <= 2 /\ 0 <= pressure_trend_score t <= 2 /\
  0 <= wave_score s <= 2.
Proof.
  unfold bass_sst_score, cod_sst_score, wind_swell_ok, pressure_trend_score,
    wave_score.
  repeat split; repeat (case_match); lia.
Qed.

Lemma score_window_range (h : hourly) (p_trend : Q) (w : Z * Z * string)
    (r : scored) :
  score_window h p_trend w = Ok r ->
  3 <= s_bass r <= 9 /\ 3 <= s_cod r <= 9.
Proof.
  destruct w as [[start end_] label]. unfold score_window.
  destruct (nearest_index (h_time h) _) as [idx|e]; [|discriminate].
  intros H. injection H as <-. simpl.
  unfold bass_composite, cod_composite.
  match goal with
  | |- context [bass_sst_score ?c] =>
    match goal with
    | |- context [wind_swell_ok ?w ?s] =>
      match goal with
      | |- context [pressure_trend_score ?t] =>
        pose proof (rule_scores_range c w s t) as (A1 & A2 & A3 & A4 & A5)
      end
    end
  end.
  lia.
Qed.

Lemma score_all_range (h : hourly) (p_trend : Q)
    (ws : list (Z * Z * string)) (rs : list scored) :
  score_all h p_trend ws = Ok rs ->
  Forall (fun r => 3 <= s_bass r <= 9 /\ 3 <= s_cod r <= 9) rs.
Proof.
  revert rs. induction ws as [|w ws IH]; intros rs H; simpl in H.
  - injection H as <-. constructor.
  - destruct (score_window h p_trend w) as [r|e] eqn:Hw; [|discriminate].
    destruct (score_all h p_trend ws) as [rs'|e] eqn:Hrest; [|discriminate].
    injection H as <-. constructor.
    + exact (score_window_range _ _ _ _ Hw).
    + exact (IH _ eq_refl).
Qed.

Lemma dispatch_attempts (cfg : config) (net : band -> bool) (today : string)
    (st : state) (pick_green pick_amber : option scored) :
  d_attempts (dispatch cfg net today st pick_green pick_amber) =
  (if picked pick_green && negb (sent_flag st today GREEN)
   then [GREEN] else []) ++
  (if picked pick_amber && negb (sent_flag st today AMBER)
   then [AMBER] else []).
Proof.
  unfold dispatch, dispatch_band.
  destruct pick_green, pick_amber; simpl;
    destruct (sent_flag st today GREEN), (sent_flag st today AMBER); simpl;
    repeat case_match; reflexivity.
Qed.

(** C3: for every forecast, tide and daylight input, each scored
    window has both composite scores in [3, 9], so [best_score] is at
    most 9, no window is a GREEN candidate, and the dispatch that
    follows never calls [send_push] for GREEN. *)
Theorem scores_at_most_nine_no_green (now : Z) (days : list Z) (met : hourly)
    (highs : list Z) (sun : Z -> option (Z * Z)) (scored_ws : list scored)
    (H : evaluate now days met highs sun = Ok scored_ws) :
  Forall (fun r => 3 <= s_bass r <= 9 /\ 3 <= s_cod r <= 9 /\
                   best_score r <= 9) scored_ws /\
  List.filter is_green scored_ws = [] /\
  forall (cfg : config) (net : band -> bool) (today : string) (st : state),
    ~ In GREEN (d_attempts (notify cfg net today st scored_ws)).
Proof.
  unfold evaluate in H. apply score_all_range in H.
  assert (Hg : List.filter is_green scored_ws = []).
  { induction H as [|r rs [Hb Hc] _ IH]; [reflexivity|].
    simpl. unfold is_green, best_score.
    replace (10 <=? Z.max (s_bass r) (s_cod r)) with false by (symmetry; apply Z.leb_gt; lia).
    exact IH. }
  split; [|split; [exact Hg|]].
  - eapply Forall_impl; [exact H|]. intros r [Hb Hc].
    unfold best_score. lia.
  - intros cfg net today st. unfold notify.
    destruct scored_ws as [|r rs]; [simpl; tauto|].
    rewrite Hg, dispatch_attempts. simpl.
    case_match; simpl; intuition discriminate.
Qed.

Lemma scores_at_most_nine_no_green_witness :
  exists scored_ws,
    evaluate (at_utc jan1 11 0) [jan1] example_hourly [at_utc jan1 14 0] sun_both
      = Ok scored_ws /\ scored_ws <> [] /\
    List.filter is_green scored_ws = [].
Proof.
  eexists. split; [vm_compute; reflexivity|]. split; [discriminate|].
  apply (proj1 (proj2 (scores_at_most_nine_no_green (at_utc jan1 11 0) [jan1]
    example_hourly [at_utc jan1 14 0] sun_both _ ltac:(vm_compute; reflexivity)))).
Defined.

(** ** Selection lemmas *)

Lemma insert_by_In (x w : scored) (l : list scored) :
  In w (insert_by x l) <-> w = x \/ In w l.
Proof.
  induction l as [|y t IH]; simpl; [intuition congruence|].
  destruct (negb (key_lt (key_of y) (key_of x))); simpl; [intuition congruence|].
  rewrite IH. intuition congruence.
Qed.

Lemma sort_by_key_In (w : scored) (l : list scored) :
  In w (sort_by_key l) <-> In w l.
Proof.
  induction l as [|x t IH]; simpl; [tauto|].
  rewrite insert_by_In, IH. intuition congruence.
Qed.

Ltac key_facts :=
  repeat match goal with
  | H : key_lt _ _ = false |- _ =>
      apply not_true_iff_false in H; rewrite key_lt_true in H
  | H : key_lt _ _ = true |- _ => rewrite key_lt_true in H
  end;
  unfold key_of in *; simpl in *.

(** The head of the sorted list has the least key, and it is the first
    element of the input with that key. *)
Lemma sort_by_key_head (l : list scored) (x : scored) (t : list scored) :
  sort_by_key l = x :: t ->
  (exists pre post, l = pre ++ x :: post /\
     forall w, In w pre -> key_lt (key_of x) (key_of w) = true) /\
  forall w, In w l -> key_lt (key_of w) (key_of x) = false.
Proof.
  revert x t. induction l as [|y l IH]; intros x t Hs; [discriminate|].
  simpl in Hs. destruct (sort_by_key l) as [|z u] eqn:Hl.
  - simpl in Hs. injection Hs as <- _. split.
    + exists [], l. split; [reflexivity|]. intros w [].
    + intros w [<-|Hw].
      * apply not_true_iff_false. rewrite key_lt_true. lia.
      * apply sort_by_key_In in Hw. rewrite Hl in Hw. destruct Hw.
  - destruct (IH z u eq_refl) as [(pre & post & Heq & Hpre) Hmin].
    simpl in Hs. destruct (key_lt (key_of z) (key_of y)) eqn:Hzy; simpl in Hs.
    + injection Hs as <- _. split.
      * exists (y :: pre), post. split; [rewrite Heq; reflexivity|].
        intros w [<-|Hw]; [exact Hzy|exact (Hpre w Hw)].
      * intros w [<-|Hw]; [|exact (Hmin w Hw)].
        apply not_true_iff_false. rewrite key_lt_true. key_facts. lia.
    + injection Hs as <- _. split.
      * exists [], l. split; [reflexivity|]. intros w [].
      * intros w [<-|Hw].
        -- apply not_true_iff_false. rewrite key_lt_true. lia.
        -- specialize (Hmin w Hw). apply not_true_iff_false.
           rewrite key_lt_true. key_facts. lia.
Qed.

(** C7: for a non-empty band, [pick_best] returns one of its windows
    with the highest [best_score], and among those the earliest start;
    of windows tied on both it returns the first, as the stable [sorted]
    does; for an empty band it returns [None]. *)
Theorem pick_best_highest_then_earliest (lst : list scored) (H : lst <> []) :
  pick_best [] = None /\
  exists r, pick_best lst = Some r /\ In r lst /\
    (forall w, In w lst ->
      best_score w < best_score r \/
      (best_score w = best_score r /\ s_start r <= s_start w)) /\
    (exists pre post, lst = pre ++ r :: post /\
      forall w, In w pre ->
        best_score w < best_score r \/
        (best_score w = best_score r /\ s_start r < s_start w)).
Proof.
  split; [reflexivity|].
  destruct lst as [|y l]; [contradiction|]. unfold pick_best.
  destruct (sort_by_key (y :: l)) as [|x t] eqn:Hs.
  - exfalso. pose proof (proj2 (sort_by_key_In y (y :: l)) (or_introl eq_refl)) as Hy.
    rewrite Hs in Hy. destruct Hy.
  - destruct (sort_by_key_head _ _ _ Hs) as [(pre & post & Heq & Hpre) Hmin].
    exists x. split; [reflexivity|].
    split; [apply (sort_by_key_In x (y :: l)); rewrite Hs; left; reflexivity|].
    split.
    + intros w Hw. specialize (Hmin w Hw). key_facts. lia.
    + exists pre, post. split; [exact Heq|].
      intros w Hw. specialize (Hpre w Hw). key_facts. lia.
Qed.

Lemma pick_best_highest_then_earliest_witness :
  pick_best [example_scored 300 7 5; example_scored 100 8 7;
             example_scored 200 6 8; example_scored 100 7 8]
    = Some (example_scored 100 8 7) /\
  (exists r, pick_best [example_scored 300 7 5; example_scored 100 8 7;
                        example_scored 200 6 8; example_scored 100 7 8] = Some r /\
     exists pre post,
       [example_scored 300 7 5; example_scored 100 8 7;
        example_scored 200 6 8; example_scored 100 7 8] = pre ++ r :: post /\
       forall w, In w pre ->
         best_score w < best_score r \/
         (best_score w = best_score r /\ s_start r < s_start w)) /\
  pick_best [] = None.
Proof.
  split; [vm_compute; reflexivity|].
  assert (Hne : [example_scored 300 7 5; example_scored 100 8 7;
                 example_scored 200 6 8; example_scored 100 7 8] <> [])
    by discriminate.
  destruct (pick_best_highest_then_earliest _ Hne) as [Hnil (r & Hr & _ & _ & Hfirst)].
  split; [|exact Hnil].
  exists r. split; [exact Hr|exact Hfirst].
Defined.

(** ** State lemmas *)

Lemma band_key_inj (b b' : band) : band_key b = band_key b' -> b = b'.
Proof. destruct b, b'; simpl; congruence. Qed.

Lemma mark_sent_lookup (st : state) (today d : string) (b b' : band) :
  entry (mark_sent st today b) d b' =
  if bool_decide (d = today /\ b = b') then Some true
  else entry st d b'.
Proof.
  unfold entry, mark_sent.
  destruct (decide (d = today)) as [->|Hd].
  - rewrite lookup_insert_eq. simpl.
    destruct (decide (b = b')) as [->|Hb].
    + rewrite bool_decide_true by tauto. rewrite lookup_insert_eq. reflexivity.
    + rewrite bool_decide_false by tauto.
      rewrite lookup_insert_ne by (intros Hk; apply Hb, band_key_inj; exact Hk).
      destruct (st !! today); reflexivity.
  - rewrite bool_decide_false by tauto. rewrite lookup_insert_ne by congruence.
    reflexivity.
Qed.

Lemma dispatch_band_entry (cfg : config) (net : band -> bool) (today : string)
    (b : band) (pick : option scored) (sent_today : bool) (acc : dispatch_result)
    (d : string) (b' : band) :
  b <> b' \/ send_push cfg net b = false ->
  entry (d_state (dispatch_band cfg net today b pick sent_today acc)) d b' =
  entry (d_state acc) d b'.
Proof.
  intros Hb. unfold dispatch_band.
  destruct pick; [|reflexivity]. destruct sent_today; [reflexivity|]. simpl.
  destruct (send_push cfg net b) eqn:Hs; [|reflexivity]. simpl.
  rewrite mark_sent_lookup. rewrite bool_decide_false; [reflexivity|].
  intros [_ ->]. destruct Hb; congruence.
Qed.

Lemma sent_flag_entry (st : state) (d : string) (b : band) :
  sent_flag st d b = default false (entry st d b).
Proof. unfold sent_flag, entry. destruct (st !! d); reflexivity. Qed.

Lemma send_push_false (cfg : config) (net : band -> bool) (b : band) :
  net b = false \/
  truthy_str (pushover_token cfg) && truthy_str (pushover_user cfg) = false ->
  send_push cfg net b = false.
Proof.
  unfold send_push. intros [H|H]; [|rewrite H; reflexivity].
  destruct (truthy_str _ && truthy_str _); simpl; auto.
Qed.

(** A band dispatched with a positive acknowledgement is marked sent for
    [today] in the in-memory state, which is then written. *)
Lemma dispatch_success (cfg : config) (net : band -> bool) (today : string)
    (st : state) (pick_green pick_amber : option scored) (b : band) :
  In b (d_attempts (dispatch cfg net today st pick_green pick_amber)) ->
  send_push cfg net b = true ->
  entry (d_state (dispatch cfg net today st pick_green pick_amber)) today b
    = Some true /\
  d_updated (dispatch cfg net today st pick_green pick_amber) = true.
Proof.
  intros Hin Hs. unfold dispatch, dispatch_band in *.
  destruct pick_green, pick_amber, (sent_flag st today GREEN),
    (sent_flag st today AMBER), (send_push cfg net GREEN) eqn:Hg,
    (send_push cfg net AMBER) eqn:Ha; simpl in *;
    destruct b; simpl in *; try congruence; intuition try discriminate;
    repeat rewrite mark_sent_lookup; repeat case_bool_decide;
    intuition congruence.
Qed.

(** C4: a band whose dispatch fails, or for which the notification
    credentials are missing, keeps its entry in the persisted state for
    every day: the run changes an entry only through an acknowledged
    dispatch. *)
Theorem failed_dispatch_keeps_entry (cfg : config) (net : band -> bool)
    (today : string) (st : state) (scored_ws : list scored) (write_ok : bool)
    (b : band)
    (H : net b = false \/
         truthy_str (pushover_token cfg) && truthy_str (pushover_user cfg) = false) :
  forall d : string,
    entry (persisted st (notify cfg net today st scored_ws) write_ok) d b =
    entry st d b.
Proof.
  intros d. apply send_push_false in H.
  unfold persisted, notify.
  destruct scored_ws as [|r rs]; [reflexivity|].
  destruct (d_updated _ && write_ok); [|reflexivity].
  unfold dispatch.
  rewrite dispatch_band_entry by (destruct b; auto; left; discriminate).
  rewrite dispatch_band_entry by (destruct b; auto; left; discriminate).
  reflexivity.
Qed.

Lemma failed_dispatch_keeps_entry_witness :
  entry (persisted example_state
           (notify example_config (fun _ => false) "2024-01-01"
              example_state [example_scored 100 8 8]) true)
        "2024-01-01" AMBER = None /\
  entry example_state "2024-01-01" AMBER = None.
Proof.
  split; [|vm_compute; reflexivity].
  rewrite (failed_dispatch_keeps_entry example_config (fun _ => false)
             "2024-01-01" example_state [example_scored 100 8 8] true AMBER
             (or_introl eq_refl) "2024-01-01").
  vm_compute. reflexivity.
Defined.

(** C5: [send_push] is called for a band exactly when a window was
    selected for it and the loaded state does not mark it sent for the
    day; each band is attempted at most once per run; after an
    acknowledged dispatch whose state was written, a later run on the
    same day makes no attempt for that band. Example of the spec: with
    [{"2024-01-01": {"green": true}}], a GREEN and an AMBER selection on
    2024-01-01 give a single attempt, for AMBER. *)
Theorem dispatch_skipped_when_sent (cfg : config) (net : band -> bool)
    (today : string) (st : state) (pick_green pick_amber : option scored) :
  let r := dispatch cfg net today st pick_green pick_amber in
  (In GREEN (d_attempts r) <->
   picked pick_green = true /\ sent_flag st today GREEN = false) /\
  (In AMBER (d_attempts r) <->
   picked pick_amber = true /\ sent_flag st today AMBER = false) /\
  NoDup (d_attempts r) /\
  (forall b, In b (d_attempts r) -> send_push cfg net b = true ->
   forall (cfg' : config) (net' : band -> bool) (pick_green' pick_amber' : option scored),
     ~ In b (d_attempts (dispatch cfg' net' today (persisted st r true)
                           pick_green' pick_amber'))) /\
  d_attempts (dispatch example_config (fun _ => true) "2024-01-01" example_state
                (Some (example_scored 100 10 8)) (Some (example_scored 200 8 8)))
    = [AMBER].
Proof.
  intros r. subst r.
  split; [|split; [|split; [|split]]].
  - rewrite dispatch_attempts.
    destruct (picked pick_green), (sent_flag st today GREEN),
      (picked pick_amber), (sent_flag st today AMBER);
      simpl; intuition congruence.
  - rewrite dispatch_attempts.
    destruct (picked pick_green), (sent_flag st today GREEN),
      (picked pick_amber), (sent_flag st today AMBER);
      simpl; intuition congruence.
  - rewrite dispatch_attempts.
    destruct (picked pick_green), (sent_flag st today GREEN),
      (picked pick_amber), (sent_flag st today AMBER); simpl;
      repeat (apply NoDup_cons_2 || apply NoDup_nil_2); set_solver.
  - intros b Hin Hs cfg' net' pg' pa'.
    destruct (dispatch_success _ _ _ _ _ _ _ Hin Hs) as [He Hu].
    unfold persisted. rewrite Hu. simpl.
    rewrite dispatch_attempts, !sent_flag_entry, <- ?He.
    destruct b; rewrite He; simpl;
      destruct (picked pg'), (picked pa'), (default false _); simpl;
      intuition discriminate.
  - vm_compute. reflexivity.
Qed.

(** C1 (failing input): with the Open-Meteo fetch failed ([{"hourly":
    {}}], every series empty), no WorldTides key (fallback tides) and
    daylight known, at 12:00 UTC on 2024-01-01 the fallback high tide
    at 18:00 gives the candidate [16:00, 18:00) labelled "dusk", and
    scoring it raises [ValueError] from [min] over the empty range of
    sample indices: no default is substituted. Scoring any window over
    the empty forecast raises the same way, whereas a forecast with
    timestamps but no value series does get the neutral defaults. *)
Theorem empty_forecast_raises :
  (forall (p_trend : Q) (w : Z * Z * string),
      score_window empty_hourly p_trend w = Raised ValueError) /\
  build_windows (at_utc jan1 12 0) sun_jan (run_days (at_utc jan1 12 0))
    (pick_flood_windows (effective_highs (at_utc jan1 12 0) []))
    = [(at_utc jan1 16 0, at_utc jan1 18 0, "dusk"%string)] /\
  evaluate (at_utc jan1 12 0) (run_days (at_utc jan1 12 0)) empty_hourly [] sun_jan
    = Raised ValueError /\
  (exists r,
      score_window (mk_hourly [at_utc jan1 17 0] [] [] [] [] [] []) 0
        (at_utc jan1 16 0, at_utc jan1 18 0, "dusk"%string) = Ok r /\
      s_sst r = 12.0%Q /\ s_wind_kt r = (6.0 * knots_per_ms)%Q /\
      s_wind_dir r = 225%Q /\ s_wave_m r = 1.2%Q /\ s_wavep r = 9.0%Q).
Proof.
  split; [|split; [|split]].
  - intros p_trend [[start end_] label]. reflexivity.
  - vm_compute. reflexivity.
  - vm_compute. reflexivity.
  - eexists. split; [reflexivity|]. repeat split.
Qed.

(** ** Further properties of the code *)

Lemma nearest_go_spec (mid : Z) (hs prefix : list Z) (best : nat) (hb : Z) :
  nth_error prefix best = Some hb ->
  (forall j x, nth_error prefix j = Some x -> Z.abs (hb - mid) <= Z.abs (x - mid)) ->
  (forall j x, (j < best)%nat -> nth_error prefix j = Some x ->
     Z.abs (hb - mid) < Z.abs (x - mid)) ->
  exists hr,
    nth_error (prefix ++ hs)
      (nearest_go hs mid (length prefix) best (Z.abs (hb - mid))) = Some hr /\
    (forall j x, nth_error (prefix ++ hs) j = Some x ->
       Z.abs (hr - mid) <= Z.abs (x - mid)) /\
    (forall j x,
       (j < nearest_go hs mid (length prefix) best (Z.abs (hb - mid)))%nat ->
       nth_error (prefix ++ hs) j = Some x -> Z.abs (hr - mid) < Z.abs (x - mid)).
Proof.
  revert prefix best hb. induction hs as [|h t IH]; intros prefix best hb Hb Hle Hlt.
  - simpl. rewrite app_nil_r. exists hb. auto.
  - simpl. replace (prefix ++ h :: t) with ((prefix ++ [h]) ++ t)
      by (rewrite <- app_assoc; reflexivity).
    assert (Hbl : (best < length prefix)%nat).
    { apply nth_error_Some. congruence. }
    assert (Hnew : forall j x, nth_error (prefix ++ [h]) j = Some x ->
              nth_error prefix j = Some x \/ (j = length prefix /\ x = h)).
    { intros j x Hj. destruct (Nat.lt_ge_cases j (length prefix)) as [Hl|Hg].
      - left. rewrite nth_error_app1 in Hj by exact Hl. exact Hj.
      - right. rewrite nth_error_app2 in Hj by exact Hg.
        destruct (j - length prefix)%nat as [|k] eqn:Hk; simpl in Hj.
        + split; [lia|congruence].
        + destruct k; discriminate. }
    destruct (Z.abs (h - mid) <? Z.abs (hb - mid)) eqn:Hc.
    + apply Z.ltb_lt in Hc.
      pose proof (IH (prefix ++ [h]) (length prefix) h) as IH'.
      rewrite length_app in IH'. simpl in IH'. rewrite Nat.add_1_r in IH'.
      apply IH'.
      * rewrite nth_error_app2 by lia. rewrite Nat.sub_diag. reflexivity.
      * intros j x Hj. destruct (Hnew j x Hj) as [Hp|[_ ->]]; [|lia].
        specialize (Hle j x Hp). lia.
      * intros j x Hjl Hj. destruct (Hnew j x Hj) as [Hp|[-> _]]; [|lia].
        specialize (Hle j x Hp). lia.
    + apply Z.ltb_ge in Hc.
      pose proof (IH (prefix ++ [h]) best hb) as IH'.
      rewrite length_app in IH'. simpl in IH'. rewrite Nat.add_1_r in IH'.
      apply IH'.
      * rewrite nth_error_app1 by lia. exact Hb.
      * intros j x Hj. destruct (Hnew j x Hj) as [Hp|[_ ->]]; [|lia].
        exact (Hle j x Hp).
      * intros j x Hjl Hj. destruct (Hnew j x Hj) as [Hp|[-> _]]; [|lia].
        exact (Hlt j x Hjl Hp).
Qed.

(** X1: the sample index chosen for a window midpoint is a valid index
    of the timestamps, its timestamp is at least as close to the
    midpoint as any other, and every earlier timestamp is strictly
    farther (ties go to the lowest index). *)
Theorem nearest_index_closest_first (hours : list Z) (mid : Z) (i : nat)
    (H : nearest_index hours mid = Ok i) :
  exists hi, nth_error hours i = Some hi /\
    forall j x, nth_error hours j = Some x ->
      Z.abs (hi - mid) <= Z.abs (x - mid) /\
      ((j < i)%nat -> Z.abs (hi - mid) < Z.abs (x - mid)).
Proof.
  destruct hours as [|h t]; [discriminate|].
  simpl in H. injection H as <-.
  destruct (nearest_go_spec mid t [h] 0 h eq_refl) as (hr & Hr & Hle & Hlt).
  - intros j x Hj. destruct j as [|[|j]]; simpl in Hj; try discriminate.
    injection Hj as <-. lia.
  - intros j x Hj. lia.
  - exists hr. simpl in Hr, Hle, Hlt. split; [exact Hr|].
    intros j x Hj. split; [exact (Hle j x Hj)|]. intros Hji. exact (Hlt j x Hji Hj).
Qed.

Lemma nearest_index_closest_first_witness :
  nearest_index [100; 40; 60; 40] 50 = Ok 1%nat /\
  exists hi, nth_error [100; 40; 60; 40] 1 = Some hi /\
    forall j x, nth_error [100; 40; 60; 40] j = Some x ->
      Z.abs (hi - 50) <= Z.abs (x - 50) /\
      ((j < 1)%nat -> Z.abs (hi - 50) < Z.abs (x - 50)).
Proof.
  assert (H : nearest_index [100; 40; 60; 40] 50 = Ok 1%nat) by reflexivity.
  split; [exact H|]. exact (nearest_index_closest_first _ _ _ H).
Defined.

Lemma score_window_null_no_time (h : hourly_raw) (p_trend : Q) (w : Z * Z * string) :
  hr_time h = [] -> score_window_null h p_trend w = inl PyValueError.
Proof.
  intros Ht. destruct w as [[s e] l]. unfold score_window_null. rewrite Ht. reflexivity.
Qed.

Lemma score_window_null_time (h : hourly_raw) (p_trend : Q) (w : Z * Z * string) :
  hr_time h <> [] ->
  exists idx, nearest_index (hr_time h) (window_mid w) = Ok idx /\
    (score_window_null h p_trend w = inl PyTypeError <-> sample_null h idx = true) /\
    (forall e, score_window_null h p_trend w = inl e -> e = PyTypeError).
Proof.
  intros Ht. destruct w as [[s e] l].
  destruct (nearest_index (hr_time h) (window_mid (s, e, l))) as [idx|ex] eqn:Hn.
  - exists idx. split; [reflexivity|].
    unfold score_window_null. rewrite Hn. unfold sample_null, null_at, at_or_null.
    destruct (nth_error (hr_sst h) idx) as [[?|]|];
    destruct (nth_error (hr_wind h) idx) as [[?|]|];
    destruct (nth_error (hr_waveh h) idx) as [[?|]|]; simpl;
    (split; [split; intros; first [reflexivity | discriminate]|]);
    intros e' He'; first [injection He' as <-; reflexivity | discriminate].
  - exfalso. destruct (hr_time h); [contradiction|discriminate].
Qed.

Lemma score_all_null_time (h : hourly_raw) (p_trend : Q) (ws : list (Z * Z * string)) :
  hr_time h <> [] ->
  (forall e, score_all_null h p_trend ws = inl e -> e = PyTypeError) /\
  (score_all_null h p_trend ws = inl PyTypeError <->
   exists w idx, In w ws /\ nearest_index (hr_time h) (window_mid w) = Ok idx /\
     sample_null h idx = true).
Proof.
  intros Ht. induction ws as [|w ws IH]; simpl.
  - split; [intros e He; discriminate|].
    split; [discriminate|]. intros (w & idx & [] & _).
  - destruct (score_window_null_time h p_trend w Ht) as (idx & Hidx & Hiff & Herr).
    destruct (score_window_null h p_trend w) as [e|r] eqn:Hw.
    + pose proof (Herr e eq_refl) as ->. split.
      * intros e' He'. injection He' as <-. reflexivity.
      * split; [|reflexivity]. intros _. exists w, idx.
        split; [left; reflexivity|]. split; [exact Hidx|]. apply Hiff. reflexivity.
    + destruct IH as [IHerr IHiff].
      destruct (score_all_null h p_trend ws) as [e|rs] eqn:Hr.
      * split; [exact IHerr|]. rewrite IHiff. split.
        -- intros (w' & idx' & Hin & Hn & Hb). exists w', idx'. auto.
        -- intros (w' & idx' & [<-|Hin] & Hn & Hb).
           ++ rewrite Hidx in Hn. injection Hn as <-.
              apply Hiff in Hb. discriminate.
           ++ exists w', idx'. auto.
      * split; [intros e He; discriminate|]. split; [discriminate|].
        intros (w' & idx' & [<-|Hin] & Hn & Hb).
        -- rewrite Hidx in Hn. injection Hn as <-. apply Hiff in Hb. discriminate.
        -- exfalso. assert (Hc : inr rs = @inl py_error (list scored_raw) PyTypeError)
              by (apply IHiff; exists w', idx'; auto).
           discriminate.
Qed.

(** X2: with [None] samples in the forecast series, the scoring loop
    raises [ValueError] exactly when there is a candidate and the
    forecast has no timestamps; it raises [TypeError] exactly when there
    are timestamps and the sample nearest to some candidate's midpoint
    is [None] in the temperature, wind or wave-height series; when it
    returns it yields one scored window per candidate, in order, with
    the candidate's interval and label. *)
Theorem score_all_null_outcome (h : hourly_raw) (p_trend : Q) (ws : list (Z * Z * string)) :
  (score_all_null h p_trend ws = inl PyValueError <-> ws <> [] /\ hr_time h = []) /\
  (score_all_null h p_trend ws = inl PyTypeError <->
   hr_time h <> [] /\
   exists w idx, In w ws /\ nearest_index (hr_time h) (window_mid w) = Ok idx /\
     sample_null h idx = true) /\
  (forall rs, score_all_null h p_trend ws = inr rs ->
     map (fun r => (rs_start r, rs_end r, rs_label r)) rs = ws).
Proof.
  split; [|split].
  - destruct (hr_time h) as [|t ts] eqn:Ht.
    + destruct ws as [|w ws]; simpl.
      * split; [discriminate|]. intros [H _]. contradiction.
      * rewrite (score_window_null_no_time h p_trend w Ht).
        split; [|reflexivity]. intros _. split; [discriminate|reflexivity].
    + assert (Hne : hr_time h <> []) by (rewrite Ht; discriminate).
      split; [|intros [_ H]; discriminate].
      intros H. pose proof (proj1 (score_all_null_time h p_trend ws Hne) _ H).
      discriminate.
  - destruct (hr_time h) as [|t ts] eqn:Ht.
    + split; [|intros [H _]; contradiction].
      destruct ws as [|w ws]; simpl; [discriminate|].
      rewrite (score_window_null_no_time h p_trend w Ht). discriminate.
    + assert (Hne : hr_time h <> []) by (rewrite Ht; discriminate).
      rewrite (proj2 (score_all_null_time h p_trend ws Hne)). rewrite <- Ht.
      tauto.
  - induction ws as [|w ws IH]; intros rs Hrs; simpl in Hrs.
    + injection Hrs as <-. reflexivity.
    + destruct (score_window_null h p_trend w) as [e|r] eqn:Hw; [discriminate|].
      destruct (score_all_null h p_trend ws) as [e|rs'] eqn:Hr; [discriminate|].
      injection Hrs as <-. simpl. rewrite (IH rs' eq_refl). f_equal.
      destruct w as [[s e] l]. unfold score_window_null in Hw.
      repeat match type of Hw with
             | context [match ?x with _ => _ end] => destruct x
             end; try discriminate.
      injection Hw as <-. reflexivity.
Qed.

Lemma at_or_null_lift (xs : list Q) (idx : nat) (d : Q) :
  at_or_null (map Some xs) idx d = Some (at_or xs idx d).
Proof.
  unfold at_or_null, at_or. rewrite nth_error_map.
  destruct (nth_error xs idx); reflexivity.
Qed.

(** On a forecast without [None] samples the null-aware loop computes
    what [score_all] computes. *)
Lemma score_all_null_lift (h : hourly) (p_trend : Q) (ws : list (Z * Z * string)) :
  score_all_null (lift_hourly h) p_trend ws =
  match score_all h p_trend ws with
  | Ok rs => inr (map lift_scored rs)
  | Raised _ => inl PyValueError
  end.
Proof.
  induction ws as [|[[s e] l] ws IH]; simpl; [reflexivity|].
  unfold score_window_null, score_window. simpl hr_time.
  destruct (nearest_index (h_time h) _) as [idx|ex]; [|reflexivity].
  simpl. rewrite !at_or_null_lift.
  destruct (score_all h p_trend ws) as [rs|ex]; rewrite IH; reflexivity.
Qed.

Lemma pressure_trend_score_zero (x : Q) : (x == 0)%Q -> pressure_trend_score x = 1.
Proof.
  intros Hx. unfold pressure_trend_score, Qltb.
  replace (Qle_bool (-1.0) x) with true
    by (symmetry; apply Qle_bool_iff; rewrite Hx; discriminate).
  simpl. replace (Qle_bool (Qabs x) 1.0) with true; [reflexivity|].
  symmetry. apply Qle_bool_iff. rewrite Hx. discriminate.
Qed.

(** X3: with fewer than three pressure readings the trend is 0 (the
    "previous" reading [psl[len // 2]] is the last one or there is none),
    so the pressure-trend score is 1. *)
Theorem pressure_trend_short_series (psl : list Q) (H : (length psl <= 2)%nat) :
  (pressure_trend psl == 0)%Q /\ pressure_trend_score (pressure_trend psl) = 1.
Proof.
  assert (Ht : (pressure_trend psl == 0)%Q).
  { destruct psl as [|a [|b [|c t]]]; simpl in H; try lia; unfold pressure_trend;
      simpl; try reflexivity;
      match goal with
      | |- context [if ?c then _ else _] => destruct c; [ring|reflexivity]
      end. }
  split; [exact Ht|]. exact (pressure_trend_score_zero _ Ht).
Qed.

Lemma pressure_trend_short_series_witness :
  let psl := [1013.2%Q; 1009.7%Q] in
  (pressure_trend psl == 0)%Q /\ pressure_trend_score (pressure_trend psl) = 1.
Proof.
  intros psl. apply pressure_trend_short_series. simpl. lia.
Defined.

Lemma Qle_bool_false (a b : Q) : Qle_bool a b = false -> (b < a)%Q.
Proof.
  intros H. apply Qnot_le_lt. intros Hle. apply Qle_bool_iff in Hle. congruence.
Qed.

Ltac qle_cases :=
  repeat match goal with
  | |- context [Qle_bool ?a ?b] =>
      let E := fresh "E" in
      destruct (Qle_bool a b) eqn:E;
      [apply Qle_bool_iff in E | apply Qle_bool_false in E]
  end.

Lemma bass_sst_score_mono (s1 s2 : Q) :
  (s1 <= s2)%Q -> bass_sst_score s1 <= bass_sst_score s2.
Proof.
  intros H. unfold bass_sst_score, Qltb. qle_cases; simpl; lia || lra.
Qed.

Lemma wind_swell_ok_anti (w1 w2 v1 v2 : Q) :
  (w1 <= w2)%Q -> (v1 <= v2)%Q -> wind_swell_ok w2 v2 <= wind_swell_ok w1 v1.
Proof.
  intros Hw Hv. unfold wind_swell_ok. qle_cases; simpl; lia || lra.
Qed.

Lemma pressure_trend_score_anti (t1 t2 : Q) :
  (t1 <= t2)%Q -> pressure_trend_score t2 <= pressure_trend_score t1.
Proof.
  intros Ht. unfold pressure_trend_score, Qltb.
  pose proof (proj1 (Qabs_Qle_condition t1 1.0)) as A1.
  pose proof (proj2 (Qabs_Qle_condition t1 1.0)) as B1.
  pose proof (proj1 (Qabs_Qle_condition t2 1.0)) as A2.
  pose proof (proj2 (Qabs_Qle_condition t2 1.0)) as B2.
  qle_cases; simpl; try lia;
    repeat match goal with
    | H : ?P -> _, H' : ?P |- _ => specialize (H H')
    end;
    intuition lra.
Qed.

(** X4: the bass composite never decreases when the sea temperature
    rises, and never increases when the wind speed, the wave height or
    the pressure trend rises. *)
Theorem bass_composite_monotone :
  (forall s1 s2 w v t : Q, (s1 <= s2)%Q ->
     bass_composite s1 w v t <= bass_composite s2 w v t) /\
  (forall s w1 w2 v t : Q, (w1 <= w2)%Q ->
     bass_composite s w2 v t <= bass_composite s w1 v t) /\
  (forall s w v1 v2 t : Q, (v1 <= v2)%Q ->
     bass_composite s w v2 t <= bass_composite s w v1 t) /\
  (forall s w v t1 t2 : Q, (t1 <= t2)%Q ->
     bass_composite s w v t2 <= bass_composite s w v t1).
Proof.
  unfold bass_composite. split; [|split; [|split]]; intros.
  - pose proof (bass_sst_score_mono _ _ H). lia.
  - pose proof (wind_swell_ok_anti _ _ v v H (Qle_refl v)). lia.
  - pose proof (wind_swell_ok_anti w w _ _ (Qle_refl w) H). lia.
  - pose proof (pressure_trend_score_anti _ _ H). lia.
Qed.

(** X5: the band a scored window is selected in agrees with the display
    label of its best score: GREEN candidates are exactly the windows
    whose best score is labelled "GREEN", AMBER candidates exactly those
    labelled "AMBER". *)
Theorem band_matches_label (r : scored) :
  (is_green r = true <-> label_from_score (best_score r) = "GREEN"%string) /\
  (is_amber r = true <-> label_from_score (best_score r) = "AMBER"%string).
Proof.
  unfold is_green, is_amber, label_from_score.
  destruct (10 <=? best_score r) eqn:E1, (7 <=? best_score r) eqn:E2,
    (best_score r <=? 9) eqn:E3, (4 <=? best_score r), (best_score r <=? 6);
    simpl; rewrite ?Z.leb_le, ?Z.leb_gt in *; split; split; intros;
    try discriminate; try reflexivity; lia.
Qed.

(** X6: every candidate window has its start on one of the run's days,
    has not ended before [now] and starts at most 24 hours after [now]. *)
Theorem candidate_within_horizon (now : Z) (sun : Z -> option (Z * Z))
    (days : list Z) (flood_windows : list (Z * Z)) (s e : Z) (l : string)
    (H : In (s, e, l) (build_windows now sun days flood_windows)) :
  In (date_of s) days /\ now <= e /\ s <= now + 24 * 3600.
Proof.
  apply build_windows_In in H.
  destruct H as (d & dawn & dusk & Hd & _ & _ & Hdate & _ & H1 & H2).
  rewrite Hdate. split; [exact Hd|]. lia.
Qed.

Lemma candidate_within_horizon_witness :
  In (date_of (at_utc jan1 12 0)) [jan1] /\ at_utc jan1 11 0 <= at_utc jan1 14 0 /\
  at_utc jan1 12 0 <= at_utc jan1 11 0 + 24 * 3600.
Proof.
  apply (candidate_within_horizon (at_utc jan1 11 0) sun_both [jan1]
           [(at_utc jan1 12 0, at_utc jan1 14 0)] _ _ "dawn"%string).
  vm_compute. left. reflexivity.
Defined.

(** X7: without tide data the flood windows are [04:00, 06:00) and
    [16:00, 18:00) UTC on the evaluation day and on the next day. *)
Theorem fallback_flood_windows (now : Z) :
  let d := date_of now in
  pick_flood_windows (effective_highs now []) =
    [(at_utc d 4 0, at_utc d 6 0); (at_utc d 16 0, at_utc d 18 0);
     (at_utc (d + 1) 4 0, at_utc (d + 1) 6 0);
     (at_utc (d + 1) 16 0, at_utc (d + 1) 18 0)].
Proof.
  intros d. unfold effective_highs, approx_highs, pick_flood_windows, hours2.
  replace (date_of (now + 86400)) with (d + 1)
    by (unfold d, date_of; replace (now + 86400) with (now + 1 * 86400) by ring;
        rewrite Z.div_add by lia; reflexivity).
  simpl. unfold at_utc.
  repeat match goal with
  | |- (_ :: _) = (_ :: _) => f_equal
  | |- (_, _) = (_, _) => f_equal
  end; unfold d; ring.
Qed.

Lemma dispatch_band_other_day (cfg : config) (net : band -> bool) (today : string)
    (b : band) (pick : option scored) (sent_today : bool) (acc : dispatch_result)
    (d : string) :
  d <> today ->
  d_state (dispatch_band cfg net today b pick sent_today acc) !! d = d_state acc !! d.
Proof.
  intros Hd. unfold dispatch_band.
  destruct pick; [|reflexivity]. destruct sent_today; [reflexivity|]. simpl.
  destruct (send_push cfg net b); [|reflexivity]. simpl.
  unfold mark_sent. rewrite lookup_insert_ne by congruence. reflexivity.
Qed.

Lemma dispatch_band_keeps_true (cfg : config) (net : band -> bool) (today : string)
    (b : band) (pick : option scored) (sent_today : bool) (acc : dispatch_result)
    (d : string) (b' : band) :
  entry (d_state acc) d b' = Some true ->
  entry (d_state (dispatch_band cfg net today b pick sent_today acc)) d b' = Some true.
Proof.
  intros H. unfold dispatch_band.
  destruct pick; [|exact H]. destruct sent_today; [exact H|]. simpl.
  destruct (send_push cfg net b); [|exact H]. simpl.
  rewrite mark_sent_lookup. case_bool_decide; [reflexivity|exact H].
Qed.

(** X8: a run rewrites at most the record of the evaluation day: the
    record of every other day is left as loaded. *)
Theorem run_touches_only_today (cfg : config) (net : band -> bool)
    (today : string) (st : state) (scored_ws : list scored) (write_ok : bool)
    (d : string) (H : d <> today) :
  persisted st (notify cfg net today st scored_ws) write_ok !! d = st !! d.
Proof.
  unfold persisted, notify.
  destruct scored_ws as [|r rs]; [reflexivity|].
  destruct (d_updated _ && write_ok); [|reflexivity].
  unfold dispatch. rewrite !dispatch_band_other_day by exact H. reflexivity.
Qed.

Lemma run_touches_only_today_witness :
  persisted example_state
    (notify example_config (fun _ => true) "2024-01-02"
       example_state [example_scored 100 8 8]) true !! "2024-01-01"%string
  = example_state !! "2024-01-01"%string /\
  "2024-01-01"%string <> "2024-01-02"%string.
Proof.
  assert (Hd : "2024-01-01"%string <> "2024-01-02"%string) by discriminate.
  split; [|exact Hd].
  exact (run_touches_only_today _ _ _ _ _ _ _ Hd).
Defined.

(** X9: a run never clears a flag: an entry marked sent in the loaded
    state is still marked sent in the persisted state. *)
Theorem run_never_unmarks (cfg : config) (net : band -> bool)
    (today : string) (st : state) (scored_ws : list scored) (write_ok : bool)
    (d : string) (b : band) (H : entry st d b = Some true) :
  entry (persisted st (notify cfg net today st scored_ws) write_ok) d b = Some true.
Proof.
  unfold persisted, notify.
  destruct scored_ws as [|r rs]; [exact H|].
  destruct (d_updated _ && write_ok); [|exact H].
  unfold dispatch. apply dispatch_band_keeps_true, dispatch_band_keeps_true. exact H.
Qed.

Lemma run_never_unmarks_witness :
  entry example_state "2024-01-01" GREEN = Some true /\
  entry (persisted example_state
           (notify example_config (fun _ => true) "2024-01-01"
              example_state [example_scored 100 8 8]) true)
        "2024-01-01" GREEN = Some true.
Proof.
  assert (H : entry example_state "2024-01-01" GREEN = Some true) by reflexivity.
  split; [exact H|]. exact (run_never_unmarks _ _ _ _ _ _ _ _ H).
Defined.

Lemma dispatch_updated_iff (cfg : config) (net : band -> bool) (today : string)
    (st : state) (pick_green pick_amber : option scored) :
  d_updated (dispatch cfg net today st pick_green pick_amber) = true <->
  exists b, In b (d_attempts (dispatch cfg net today st pick_green pick_amber)) /\
            send_push cfg net b = true.
Proof.
  unfold dispatch, dispatch_band.
  destruct pick_green, pick_amber, (sent_flag st today GREEN),
    (sent_flag st today AMBER), (send_push cfg net GREEN) eqn:Hg,
    (send_push cfg net AMBER) eqn:Ha; simpl;
    split; try discriminate;
    try (intros _; first [exists GREEN; simpl; tauto | exists AMBER; simpl; tauto]);
    intros (b' & Hin & Hs); simpl in Hin; intuition (subst; congruence).
Qed.

(** X10: the state file is rewritten only when some [send_push] call of
    the run was acknowledged; when no dispatch can succeed (every push
    fails, or the credentials are missing) the persisted state is exactly
    the loaded one. *)
Theorem state_written_iff_acknowledged (cfg : config) (net : band -> bool)
    (today : string) (st : state) (scored_ws : list scored) (write_ok : bool) :
  (d_updated (notify cfg net today st scored_ws) = true <->
   exists b, In b (d_attempts (notify cfg net today st scored_ws)) /\
             send_push cfg net b = true) /\
  ((forall b, send_push cfg net b = false) ->
   persisted st (notify cfg net today st scored_ws) write_ok = st).
Proof.
  assert (Hiff : d_updated (notify cfg net today st scored_ws) = true <->
     exists b, In b (d_attempts (notify cfg net today st scored_ws)) /\
               send_push cfg net b = true).
  { unfold notify. destruct scored_ws as [|r rs].
    - simpl. split; [discriminate|]. intros (b & [] & _).
    - apply dispatch_updated_iff. }
  split; [exact Hiff|].
  intros Hf. unfold persisted.
  destruct (d_updated (notify cfg net today st scored_ws)) eqn:Hu; [|reflexivity].
  destruct (proj1 Hiff eq_refl) as (b & _ & Hb). rewrite Hf in Hb. discriminate.
Qed.

Lemma py_fmod_360_range (x : Q) : (0 <= py_fmod x 360 < 360)%Q.
Proof.
  unfold py_fmod.
  pose proof (Qfloor_le (x / 360)) as H1.
  pose proof (Qlt_floor (x / 360)) as H2.
  rewrite inject_Z_plus in H2.
  change (x / 360)%Q with (x * (1 # 360))%Q in *.
  change (inject_Z 1) with 1%Q in H2.
  split; lra.
Qed.

(** X11: the wind direction label of the notification never raises
    [IndexError]: for every direction in degrees (negative or beyond
    360 included) the index is in [0, 16). After reduction modulo 360
    the direction lies within 11.25 degrees of the chosen compass point
    (directions from 348.75 on wrap round to "N"). *)
Theorem wind_dir_label_nearest :
  (forall deg : Q, exists lbl, wind_dir_label deg = Some lbl) /\
  (forall deg : Q,
     let m := py_fmod deg 360 in
     let k := wind_dir_index deg in
     0 <= k < 16 /\
     ((22.5 * inject_Z k - 11.25 <= m < 22.5 * inject_Z k + 11.25)%Q \/
      (k = 0 /\ (348.75 <= m)%Q))) /\
  wind_dir_label 225 = Some "SW"%string /\ wind_dir_label (-10) = Some "N"%string.
Proof.
  split; [|split; [|split; reflexivity]].
  - intros deg. unfold wind_dir_label, py_index.
    pose proof (Z.mod_pos_bound (py_int (py_fmod deg 360 / 22.5 + 0.5)) 16
                  ltac:(lia)) as Hb.
    unfold wind_dir_index. set (i := py_int _ mod 16) in *.
    replace (i <? 0) with false by (symmetry; apply Z.ltb_ge; lia).
    destruct (nth_error cardinal_dirs (Z.to_nat i)) as [lbl|] eqn:E;
      [exists lbl; reflexivity|].
    apply nth_error_None in E. simpl in E. lia.
  - intros deg m k.
    assert (Hm : (0 <= m < 360)%Q) by apply py_fmod_360_range.
    destruct Hm as [Hm0 Hm1].
    unfold k, wind_dir_index. fold m. clearbody m.
    unfold py_int.
    replace (Qle_bool 0 (m / 22.5 + 0.5)) with true
      by (symmetry; apply Qle_bool_iff;
          change (m / 22.5)%Q with (m * (10 # 225))%Q; lra).
    pose proof (Qfloor_le (m / 22.5 + 0.5)) as H1.
    pose proof (Qlt_floor (m / 22.5 + 0.5)) as H2.
    rewrite inject_Z_plus in H2. change (inject_Z 1) with 1%Q in H2.
    set (n := Qfloor (m / 22.5 + 0.5)) in *.
    change (m / 22.5)%Q with (m * (10 # 225))%Q in *.
    assert (Hn0 : 0 <= n).
    { destruct (Z_lt_le_dec n 0) as [Hlt|Hle]; [|exact Hle].
      assert (Hq : (inject_Z n <= inject_Z (-1))%Q) by (rewrite <- Zle_Qle; lia).
      change (inject_Z (-1)) with (-1)%Q in Hq. lra. }
    assert (Hn16 : n <= 16).
    { destruct (Z_lt_le_dec 16 n) as [Hlt|Hle]; [|exact Hle].
      assert (Hq : (inject_Z 17 <= inject_Z n)%Q) by (rewrite <- Zle_Qle; lia).
      change (inject_Z 17) with 17%Q in Hq. lra. }
    destruct (Z.eq_dec n 16) as [E|E].
    + rewrite E in *. change (16 mod 16) with 0. split; [lia|].
      right. split; [reflexivity|].
      change (inject_Z 16) with 16%Q in H1. lra.
    + rewrite Z.mod_small by lia. split; [lia|]. left. split; lra.
Qed.

Lemma insert_Z_perm (x : Z) (l : list Z) : Permutation (insert_Z x l) (x :: l).
Proof.
  induction l as [|y t IH]; simpl; [reflexivity|].
  destruct (x <=? y); [reflexivity|].
  rewrite IH. apply perm_swap.
Qed.

Lemma sort_Z_perm (l : list Z) : Permutation (sort_Z l) l.
Proof.
  induction l as [|x t IH]; simpl; [reflexivity|].
  rewrite insert_Z_perm, IH. reflexivity.
Qed.

Lemma insert_Z_sorted (x : Z) (l : list Z) :
  Sorted Z.le l -> Sorted Z.le (insert_Z x l).
Proof.
  induction l as [|y t IH]; intros Hs; simpl.
  - repeat constructor.
  - destruct (x <=? y) eqn:Hxy.
    + apply Z.leb_le in Hxy. constructor; [exact Hs|]. constructor. exact Hxy.
    + apply Z.leb_gt in Hxy. inversion Hs as [|? ? Ht Hhd]; subst.
      constructor; [exact (IH Ht)|].
      destruct t as [|z u]; simpl; [constructor; lia|].
      inversion Hhd; subst.
      destruct (x <=? z); constructor; lia.
Qed.

Lemma sort_Z_sorted (l : list Z) : Sorted Z.le (sort_Z l).
Proof.
  induction l as [|x t IH]; simpl; [constructor|].
  apply insert_Z_sorted. exact IH.
Qed.

Lemma collect_highs_some (iso : string -> option Z) (exs : list jelem) (hs : list Z) :
  collect_highs iso exs = inr hs -> hs = high_dates iso exs.
Proof.
  revert hs. induction exs as [|[ex|] t IH]; intros hs H; simpl in H.
  - injection H as <-. reflexivity.
  - unfold high_dates. simpl. fold (high_dates iso t).
    destruct (is_high (ex_type ex)) as [e|[|]]; [discriminate| |exact (IH hs H)].
    destruct (parse_date iso (ex_date ex)) as [e|d]; [discriminate|].
    destruct (collect_highs iso t) as [e|hs']; [discriminate|].
    injection H as <-. simpl. f_equal. exact (IH hs' eq_refl).
  - discriminate.
Qed.

Lemma collect_highs_cons (iso : string -> option Z) (y : jelem) (t : list jelem)
    (e : tides_exn) :
  collect_highs iso (y :: t) = inl e <->
  elem_error iso y = Some e \/ (elem_error iso y = None /\ collect_highs iso t = inl e).
Proof.
  destruct y as [ex|]; simpl.
  - destruct (is_high (ex_type ex)) as [e'|[|]].
    + split; [intros H; left; congruence|intros [H|[H _]]; congruence].
    + destruct (parse_date iso (ex_date ex)) as [e'|d].
      * split; [intros H; left; congruence|intros [H|[H _]]; congruence].
      * destruct (collect_highs iso t) as [e'|hs].
        -- split; [intros H; right; split; congruence|intros [H|[_ H]]; congruence].
        -- split; [discriminate|intros [H|[_ H]]; discriminate].
    + split; [intros H; right; split; [reflexivity|exact H]|].
      intros [H|[_ H]]; [discriminate|exact H].
  - split; [intros H; left; congruence|intros [H|[H _]]; congruence].
Qed.

Lemma collect_highs_inl (iso : string -> option Z) (exs : list jelem) (e : tides_exn) :
  collect_highs iso exs = inl e <->
  exists pre x post, exs = pre ++ x :: post /\
    Forall (fun y => elem_error iso y = None) pre /\ elem_error iso x = Some e.
Proof.
  induction exs as [|y t IH].
  - simpl. split; [discriminate|].
    intros (pre & x & post & Heq & _). destruct pre; discriminate.
  - rewrite collect_highs_cons, IH. split.
    + intros [Hy|[Hy (pre & x & post & Heq & Hok & Hx)]].
      * exists [], y, t. split; [reflexivity|]. split; [constructor|exact Hy].
      * exists (y :: pre), x, post. split; [rewrite Heq; reflexivity|].
        split; [constructor; assumption|exact Hx].
    + intros ([|p pre] & x & post & Heq & Hok & Hx); simpl in Heq.
      * injection Heq as -> ->. left. exact Hx.
      * injection Heq as -> ->. inversion Hok as [|? ? Hp Hok']; subst.
        right. split; [exact Hp|]. exists pre, x, post. auto.
Qed.

(** X12: the high tides returned by the tide fetcher are in ascending
    order; with an API key and a response with a list of extremes they
    are exactly the parsed dates of the extremes whose type is "high" in
    any letter case, with multiplicity. *)
Theorem fetched_highs_sorted (worldtides_key : string) (iso : string -> option Z)
    (resp : tides_resp) (hs : list Z)
    (H : fetch_worldtides_extremes worldtides_key iso resp = Highs hs) :
  Sorted Z.le hs /\
  (forall exs, resp = RespObject (EList exs) -> truthy_str worldtides_key = true ->
     Permutation hs (high_dates iso exs)).
Proof.
  unfold fetch_worldtides_extremes in H.
  destruct (truthy_str worldtides_key) eqn:Hk; simpl in H.
  - destruct resp as [| |[|exs|]]; try discriminate.
    + injection H as H; subst hs. split; [constructor|]. intros exs' He. discriminate.
    + injection H as H; subst hs. split; [constructor|]. intros exs' He. discriminate.
    + destruct (collect_highs iso exs) as [e|hs'] eqn:Hc; [discriminate|].
      injection H as H; subst hs. split; [apply sort_Z_sorted|].
      intros exs' He _. injection He as <-.
      rewrite sort_Z_perm. rewrite (collect_highs_some _ _ _ Hc). reflexivity.
  - injection H as H; subst hs. split; [constructor|]. intros exs' He Hf. discriminate.
Qed.

Lemma fetched_highs_sorted_witness :
  let exs := [JExtreme (mk_extreme (JStr "High") (JStr "2024-01-01T18:30"));
              JExtreme (mk_extreme (JStr "low") JMissing);
              JExtreme (mk_extreme JMissing (JStr "garbage"));
              JExtreme (mk_extreme (JStr "HIGH") (JStr "2024-01-01T06:10"))] in
  fetch_worldtides_extremes "key" example_iso (RespObject (EList exs))
    = Highs [at_utc jan1 6 10; at_utc jan1 18 30] /\
  Sorted Z.le [at_utc jan1 6 10; at_utc jan1 18 30] /\
  Permutation [at_utc jan1 6 10; at_utc jan1 18 30] (high_dates example_iso exs).
Proof.
  intros exs.
  assert (H : fetch_worldtides_extremes "key" example_iso (RespObject (EList exs))
                = Highs [at_utc jan1 6 10; at_utc jan1 18 30])
    by (vm_compute; reflexivity).
  split; [exact H|].
  destruct (fetched_highs_sorted _ _ _ _ H) as [Hs Hp].
  split; [exact Hs|]. exact (Hp exs eq_refl eq_refl).
Defined.

(** X13: with an API key and a list of extremes, the tide fetcher raises
    exactly when some element is malformed, and it raises the exception
    of the first malformed element; none of these is caught by its
    [except requests.RequestException]. An element is malformed when it
    is not an object ([AttributeError]), when its "type" is present but
    not a string ([AttributeError]), or when its type is "high" in any
    letter case and its "date" is absent ([KeyError]), not a string
    ([TypeError]) or not accepted by [fromisoformat] ([ValueError]). *)
Theorem fetch_highs_first_error (worldtides_key : string) (iso : string -> option Z)
    (exs : list jelem) (e : tides_exn) :
  (fetch_worldtides_extremes worldtides_key iso (RespObject (EList exs)) = TidesRaised e <->
   truthy_str worldtides_key = true /\
   exists pre x post, exs = pre ++ x :: post /\
     Forall (fun y => elem_error iso y = None) pre /\ elem_error iso x = Some e) /\
  (forall x, elem_error iso x = Some e <->
     (x = JNonObj /\ e = ExAttributeError) \/
     exists ex, x = JExtreme ex /\
       ((ex_type ex = JNonStr /\ e = ExAttributeError) \/
        (exists s, ex_type ex = JStr s /\ str_lower s = "high"%string /\
           ((ex_date ex = JMissing /\ e = ExKeyError) \/
            (ex_date ex = JNonStr /\ e = ExTypeError) \/
            (exists d, ex_date ex = JStr d /\ iso d = None /\ e = ExValueError))))).
Proof.
  split.
  - unfold fetch_worldtides_extremes.
    destruct (truthy_str worldtides_key); simpl.
    + rewrite <- collect_highs_inl.
      destruct (collect_highs iso exs) as [e'|hs].
      * split; [intros H; split; [reflexivity|congruence]|].
        intros [_ H]. congruence.
      * split; [discriminate|]. intros [_ H]. discriminate.
    + split; [discriminate|]. intros [H _]. discriminate.
  - intros [ex|].
    + simpl. destruct ex as [t d]. simpl. split.
      * intros H. right. exists (mk_extreme t d). split; [reflexivity|]. simpl.
        destruct t as [|s|]; simpl in H; [discriminate| |left; split; congruence].
        right. exists s. split; [reflexivity|].
        destruct (String.eqb (str_lower s) "high") eqn:Hs; [|discriminate].
        apply String.eqb_eq in Hs. split; [exact Hs|].
        destruct d as [|d|]; simpl in H.
        -- left. split; congruence.
        -- right; right. exists d. destruct (iso d); [discriminate|].
           split; [reflexivity|]. split; congruence.
        -- right; left. split; congruence.
      * intros [[H _]|(ex & Hex & Hc)]; [discriminate|].
        injection Hex as <-. simpl in Hc.
        destruct Hc as [[-> ->]|(s & -> & Hs & Hd)]; [reflexivity|].
        simpl. rewrite Hs. simpl.
        destruct Hd as [[-> ->]|[[-> ->]|(d' & -> & Hi & ->)]]; simpl;
          [reflexivity|reflexivity|rewrite Hi; reflexivity].
    + simpl. split.
      * intros H. left. split; congruence.
      * intros [[_ ->]|(ex & Hex & _)]; [reflexivity|discriminate].
Qed.

(** A high tide with an unparseable date before one without a date:
    the first raises [ValueError], and the [KeyError] is never reached. *)
Lemma fetch_bad_date_first :
  fetch_worldtides_extremes "key" example_iso
    (RespObject (EList [JExtreme (mk_extreme (JStr "High") (JStr "x"));
                        JExtreme (mk_extreme (JStr "High") JMissing)]))
  = TidesRaised ExValueError.
Proof. vm_compute. reflexivity. Qed.
